(** * templates/python-flask/html/app.py

    A shallow embedding of the Flask starter template and the properties
    of its single route and of its entry point.

    The file has three layers:
    - [Py]: the pieces of the Python runtime the program calls
      ([os.environ.get], [int], exceptions), as a state-and-exception monad
      over the process' world;
    - [Flask]: the part of the imported framework the program drives
      (route registration, request dispatch, [run]);
    - [App]: the program itself, statement by statement. *)

From Stdlib Require Import ZArith String Ascii List Lia.
From stdpp Require Import base option gmap strings list.

Local Open Scope Z_scope.
Local Open Scope string_scope.
Local Open Scope list_scope.

(** ** The Python runtime *)

Module Py.

(** Exceptions the program can meet.  [ValueError] is what [int] raises on
    a string that is not an integer literal (it carries the offending
    string); [Raised] stands for anything the framework or the operating
    system raises (class name and message), e.g. [OSError] when the port is
    already in use. *)
Inductive exn : Type :=
| ValueError (literal : string)
| Raised (cls : string) (msg : string).

Inductive Result (A : Type) : Type :=
| Ok (a : A)
| Raise (e : exn).
Arguments Ok {A} a.
Arguments Raise {A} e.

(** An HTTP request as a handler can observe it through the framework's
    request context. *)
Record Request : Type := mkRequest {
  method : string;
  path : string;
  query_string : string;
  headers : list (string * string);
  data : string
}.

(** What the process does that is visible from outside. *)
Inductive Event : Type :=
| EnvironGet (key : string)
| Run (host : string) (port : Z)
| Handled (req : Request) (status : Z).

(** The world a Python statement runs in: the process environment
    ([os.environ]), the request being handled (if any), the requests that
    arrive once a server listens, the operating system's answer to a
    bind on a host and port ([None]: the socket is bound), the files of the
    application's static folder by name, and the trace of events so far
    (most recent last). *)
Record World : Type := mkWorld {
  environ : gmap string string;
  request : option Request;
  incoming : list Request;
  bind_error : string -> Z -> option exn;
  static_file : string -> option string;
  trace : list Event
}.

(** Python computations: they read and write the world and either return a
    value or raise; the world survives an exception. *)
Definition M (A : Type) : Type := World -> Result A * World.

Definition ret {A} (a : A) : M A := fun w => (Ok a, w).

Definition bind {A B} (m : M A) (k : A -> M B) : M B :=
  fun w => match m w with
           | (Ok a, w') => k a w'
           | (Raise e, w') => (Raise e, w')
           end.

Definition raise {A} (e : exn) : M A := fun w => (Raise e, w).

Definition get_world : M World := fun w => (Ok w, w).

Definition emit (ev : Event) : M unit :=
  fun w => (Ok tt, mkWorld (environ w) (request w) (incoming w) (bind_error w)
                           (static_file w) (trace w ++ [ev])).

Definition set_request (r : option Request) : M unit :=
  fun w => (Ok tt, mkWorld (environ w) r (incoming w) (bind_error w)
                           (static_file w) (trace w)).

Declare Scope py_scope.
Delimit Scope py_scope with py.
Notation "'let*' x ':=' m 'in' k" := (bind m (fun x => k))
  (at level 10, x name, m at level 100, k at level 200) : py_scope.
Notation "m ';;;' k" := (bind m (fun _ => k))
  (at level 100, k at level 200, right associativity) : py_scope.
Local Open Scope py_scope.

(** Python values that flow through the entry point: [os.environ.get]
    returns a [str] from the mapping or the default it was given, here the
    [int] 8000. *)
Inductive value : Type :=
| PyStr (s : string)
| PyInt (n : Z).

(** Modelled from the spec: [dict.get] is a builtin of the runtime, not part
    of the sources.  [d.get(key, default)] on [os.environ]: the value of
    [key], a [str], or [default] when [key] is unset. *)
Definition dict_get (d : gmap string string) (key : string) (default : value) : value :=
  match d !! key with
  | Some s => PyStr s
  | None => default
  end.

(** [os.environ.get(key, default)]: a read of the environment. *)
Definition environ_get (key : string) (default : value) : M value :=
  emit (EnvironGet key) ;;;
  let* w := get_world in
  ret (dict_get (environ w) key default).

(** *** [int]

    [int] is a builtin of the runtime, not part of the sources.  [int(n)]
    of an [int] is [n].  [int(s)] of a [str] reads a base-10 literal:
    optional surrounding whitespace, an optional sign, then digits in which
    single underscores may separate digits; anything else raises
    [ValueError].  The model covers strings of ASCII characters (the runtime
    also accepts non-ASCII decimal digits and spaces, and recent versions
    refuse literals of more than 4300 digits); no property below depends on
    which strings parse, except that "9999" does. *)

Definition is_space (c : ascii) : bool :=
  let n := nat_of_ascii c in
  (((9 <=? n)%nat && (n <=? 13)%nat) || (n =? 32)%nat)%bool.

Definition digit_val (c : ascii) : option Z :=
  let n := nat_of_ascii c in
  if ((48 <=? n)%nat && (n <=? 57)%nat)%bool then Some (Z.of_nat n - 48) else None.

Fixpoint lstrip (s : string) : string :=
  match s with
  | String c s' => if is_space c then lstrip s' else s
  | EmptyString => EmptyString
  end.

(** The digit run: [acc] is the value read so far, [after_us] tells that the
    previous character was an underscore.  Returns the value and what
    follows the run; a doubled or trailing underscore is an error. *)
Fixpoint scan_digits (acc : Z) (after_us : bool) (s : string) : option (Z * string) :=
  match s with
  | String c s' =>
      match digit_val c with
      | Some d => scan_digits (10 * acc + d) false s'
      | None =>
          if after_us then None
          else if Ascii.eqb c "_"%char then scan_digits acc true s'
          else Some (acc, s)
      end
  | EmptyString => if after_us then None else Some (acc, EmptyString)
  end.

(** Digits must start the run (no leading underscore, at least one digit),
    and only whitespace may follow it. *)
Definition parse_unsigned (s : string) : option Z :=
  match s with
  | String c _ =>
      match digit_val c with
      | Some _ =>
          match scan_digits 0 false s with
          | Some (n, rest) =>
              match lstrip rest with
              | EmptyString => Some n
              | _ => None
              end
          | None => None
          end
      | None => None
      end
  | EmptyString => None
  end.

(** Modelled from the spec: the integer a [PORT] value denotes, or [None]
    when it is unparsable. *)
Definition parse_int (s : string) : option Z :=
  match lstrip s with
  | String c s' =>
      if Ascii.eqb c "+"%char then parse_unsigned s'
      else if Ascii.eqb c "-"%char then Z.opp <$> parse_unsigned s'
      else parse_unsigned (String c s')
  | EmptyString => None
  end.

(** Modelled from the spec: [int(v)], which raises on an unparsable
    string. *)
Definition int (v : value) : M Z :=
  match v with
  | PyInt n => ret n
  | PyStr s =>
      match parse_int s with
      | Some n => ret n
      | None => raise (ValueError s)
      end
  end.

End Py.

(** ** The framework

    [flask] is imported, not part of the sources.  This module holds the
    behaviour of the framework that the program drives: the constructor,
    which registers the rule for static files; [route]; the router, which
    matches the path of a request with its leading slashes reduced to one
    and the method in upper case; the making of a response from what a view
    returns; and [run].  Rules are literal paths, as the one the program
    registers, apart from the framework's own rule for static files.  Not
    modelled: the merging of doubled slashes inside a path (it can only
    lead to the rule for static files), and conditional or partial
    answers for static files. *)

Module Flask.
Import Py.
Local Open Scope py_scope.

Record Response : Type := mkResponse {
  status : Z;
  content_type : string;
  body : string
}.

(** Modelled from the spec: the media type of a [Content-Type] value is what
    precedes its parameters. *)
Fixpoint mimetype (ct : string) : string :=
  match ct with
  | String c s => if Ascii.eqb c ";"%char then EmptyString else String c (mimetype s)
  | EmptyString => EmptyString
  end.

(** Failures and redirects the framework answers itself.  The application
    registers no error handler, so each is rendered as the framework's
    default response for it. *)
Inductive HTTPException : Type :=
| NotFound
| MethodNotAllowed (valid : list string)
| InternalServerError
| RequestRedirect (location : string).

(** Modelled from the spec: the status of the framework's default
    responses. *)
Definition code (e : HTTPException) : Z :=
  match e with
  | NotFound => 404
  | MethodNotAllowed _ => 405
  | InternalServerError => 500
  | RequestRedirect _ => 308
  end.

(** An answer: the response made of what a view returned, a default
    response of the framework, or a file of the static folder. *)
Inductive Reply : Type :=
| ViewResponse (r : Response)
| DefaultError (e : HTTPException)
| StaticFile (filename : string) (content : string).

(** Modelled from the spec: the status of an answer. *)
Definition reply_status (r : Reply) : Z :=
  match r with
  | ViewResponse r => status r
  | DefaultError e => code e
  | StaticFile _ _ => 200
  end.

(** A view function: called without arguments, returns a [str]. *)
Definition View : Type := M string.

Record Rule : Type := mkRule {
  rule : string;
  endpoint : string;
  methods : list string
}.

(** The application object.  [url_map] lists the rules added through
    [add_url_rule], in order, and [view_functions] their views; the rule
    the constructor adds for static files is kept as [static_url_path] and
    the router matches it before the others. *)
Record App : Type := mkApp {
  import_name : string;
  static_url_path : option string;
  url_map : list Rule;
  view_functions : gmap string View
}.

(** Modelled from the spec: the class [Flask] is imported.
    [Flask(import_name)] is an application with no route of the author's
    yet; the framework serves the static folder under /static. *)
Definition new (name : string) : App := mkApp name (Some "/static") [] ∅.

(** Modelled from the spec: the spec is silent on methods other than GET;
    by the framework's documentation a rule registered without [methods]
    answers GET, and with it HEAD and OPTIONS. *)
Definition default_methods : list string := ["GET"; "HEAD"; "OPTIONS"].

(** Modelled from the spec: registering a route binds the path to the
    endpoint in the URL map and the endpoint to the view function. *)
Definition add_url_rule (a : App) (r : string) (ep : string) (view : View) : App :=
  mkApp (import_name a)
        (static_url_path a)
        (url_map a ++ [mkRule r ep default_methods])
        (<[ep := view]> (view_functions a)).

(** Modelled from the spec: [@a.route(r)] applied to the function named
    [fname] registers it; the endpoint is the function's name. *)
Definition route (a : App) (r : string) (fname : string) (view : View) : App :=
  add_url_rule a r fname view.

(** Modelled from the spec: the framework reads the method of a request in
    upper case (ASCII letters; other characters are kept). *)
Definition upper_char (c : ascii) : ascii :=
  let n := nat_of_ascii c in
  if ((97 <=? n)%nat && (n <=? 122)%nat)%bool then ascii_of_nat (n - 32) else c.

(** Modelled from the spec: [upper_char] on every character. *)
Fixpoint upper (s : string) : string :=
  match s with
  | String c s' => String (upper_char c) (upper s')
  | EmptyString => EmptyString
  end.

(** Modelled from the spec: a string without its leading slashes. *)
Fixpoint lstrip_slash (s : string) : string :=
  match s with
  | String c s' => if Ascii.eqb c "/"%char then lstrip_slash s' else s
  | EmptyString => EmptyString
  end.

(** Modelled from the spec: the path the router matches on: the path of the
    request with its leading slashes reduced to one; the empty path stays
    empty. *)
Definition path_part (p : string) : string :=
  match p with
  | EmptyString => EmptyString
  | String _ _ => "/" +:+ lstrip_slash p
  end.

(** Modelled from the spec: what follows the prefix [pre] in [s], if [s]
    begins with it. *)
Fixpoint strip_prefix (pre s : string) : option string :=
  match pre, s with
  | EmptyString, _ => Some s
  | String a pre', String b s' => if Ascii.eqb a b then strip_prefix pre' s' else None
  | String _ _, EmptyString => None
  end.

(** Modelled from the spec: whether a string ends with a slash. *)
Fixpoint ends_with_slash (s : string) : bool :=
  match s with
  | String c EmptyString => Ascii.eqb c "/"%char
  | String _ s' => ends_with_slash s'
  | EmptyString => false
  end.

(** Modelled from the spec: the rule the constructor registers for static
    files under the prefix [sp]. *)
Definition static_rule (sp : string) : Rule :=
  mkRule (sp +:+ "/<path:filename>") "static" default_methods.

(** Modelled from the spec: the file name when the path [pp] is matched by
    the rule for static files: what follows the prefix and a slash, when
    it is not empty and neither begins nor ends with a slash. *)
Definition static_filename (sp pp : string) : option string :=
  match strip_prefix (sp +:+ "/") pp with
  | Some (String c f) =>
      if (Ascii.eqb c "/"%char || ends_with_slash (String c f))%bool then None
      else Some (String c f)
  | _ => None
  end.

(** Modelled from the spec: the rules whose path is [pp], in the order the
    router tries them, each with the file name it binds (for the rule of
    static files). *)
Definition candidates (a : App) (pp : string) : list (Rule * option string) :=
  match static_url_path a with
  | Some sp =>
      match static_filename sp pp with
      | Some f => [(static_rule sp, Some f)]
      | None => []
      end
  | None => []
  end
  ++ map (fun r => (r, None)) (List.filter (fun r => String.eqb (rule r) pp) (url_map a)).

(** Modelled from the spec: whether the rule lists the method. *)
Definition allows (r : Rule) (m : string) : bool :=
  existsb (String.eqb m) (methods r).

(** The outcome of routing: a rule (with the file name it binds, if any), a
    redirect to the path with a slash added, or no rule; in the last case
    [valid] lists the methods of the rules whose path matched. *)
Inductive Match : Type :=
| Matched (r : Rule) (filename : option string)
| Redirect (location : string)
| NoMatch (valid : list string).

(** Modelled from the spec: routing is the framework's.  The first rule
    whose path is the request's and which lists the method is chosen; if
    there is none but a rule listing the method would match the path with a
    slash added, the router redirects there; otherwise there is no match. *)
Definition match_request (a : App) (m : string) (p : string) : Match :=
  let pp := path_part p in
  match List.find (fun c => allows (fst c) m) (candidates a pp) with
  | Some (r, f) => Matched r f
  | None =>
      match List.find (fun r => (String.eqb (rule r) (pp +:+ "/") && allows r m)%bool)
                      (url_map a) with
      | Some _ => Redirect (pp +:+ "/")
      | None => NoMatch (List.concat (map (fun c => methods (fst c)) (candidates a pp)))
      end
  end.

(** Modelled from the spec: the first rule whose path is the request's,
    whatever the method. *)
Definition match_rule (a : App) (p : string) : option Rule :=
  fst <$> head (candidates a (path_part p)).

(** Modelled from the spec: a [str] returned by a view becomes the body of
    a 200 response of content type text/html. *)
Definition make_response (s : string) : Response :=
  mkResponse 200 "text/html; charset=utf-8" s.

(** Modelled from the spec: the framework calls the view and makes a
    response of what it returns.  By the framework's documentation an
    exception escaping a view is answered with the default server-error
    response. *)
Definition call_view (view : View) : M Reply :=
  fun w => match view w with
           | (Ok s, w') => (Ok (ViewResponse (make_response s)), w')
           | (Raise _, w') => (Ok (DefaultError InternalServerError), w')
           end.

(** Modelled from the spec: the view of the rule for static files answers
    with the file of that name in the static folder, or with the default
    not-found response when there is none. *)
Definition send_static_file (filename : string) : M Reply :=
  let* w := get_world in
  match static_file w filename with
  | Some content => ret (StaticFile filename content)
  | None => ret (DefaultError NotFound)
  end.

(** Modelled from the spec: the request is routed on its path and its
    method in upper case.  A path that matches no rule gets the default
    not-found response.  For what the spec leaves open the framework's
    documentation is followed: when rules match the path but none lists the
    method, the default method-not-allowed response; a redirect of the
    router, the default redirect response; OPTIONS on a matched rule is
    answered by the framework itself; otherwise the view of the rule
    answers. *)
Definition full_dispatch_request (a : App) : M Reply :=
  let* w := get_world in
  match request w with
  | None => raise (Raised "RuntimeError" "Working outside of request context.")
  | Some req =>
      match match_request a (upper (method req)) (path req) with
      | NoMatch [] => ret (DefaultError NotFound)
      | NoMatch (m :: valid) => ret (DefaultError (MethodNotAllowed (m :: valid)))
      | Redirect location => ret (DefaultError (RequestRedirect location))
      | Matched r arg =>
          if String.eqb (upper (method req)) "OPTIONS"
          then ret (ViewResponse (make_response ""))
          else
            match arg with
            | Some filename => send_static_file filename
            | None =>
                match view_functions a !! endpoint r with
                | Some view => call_view view
                | None => ret (DefaultError InternalServerError)
                end
            end
      end
  end.

(** Modelled from the spec: by the framework's documentation the answer to
    a request whose method is HEAD, spelled so, carries no body. *)
Definition finalize (req : Request) (rep : Reply) : Reply :=
  if String.eqb (method req) "HEAD" then
    match rep with
    | ViewResponse r => ViewResponse (mkResponse (status r) (content_type r) "")
    | StaticFile filename _ => StaticFile filename ""
    | DefaultError _ => rep
    end
  else rep.

(** Modelled from the spec: one request through the framework: enter its
    context, dispatch, leave the context. *)
Definition wsgi_app (a : App) (req : Request) : M Reply :=
  let* w0 := get_world in
  set_request (Some req) ;;;
  let* rep := full_dispatch_request a in
  set_request (request w0) ;;;
  emit (Handled req (reply_status rep)) ;;;
  ret (finalize req rep).

(** Modelled from the spec: the server answers the requests one after the
    other. *)
Fixpoint serve (a : App) (reqs : list Request) : M unit :=
  match reqs with
  | [] => ret tt
  | req :: rest => wsgi_app a req ;;; serve a rest
  end.

(** Modelled from the spec: the development server is the framework's.
    [a.run(host=..., port=...)] binds the socket, then answers the requests
    that arrive; a failed bind raises what the operating system reports. *)
Definition run (a : App) (host : string) (port : Z) : M unit :=
  emit (Run host port) ;;;
  let* w := get_world in
  match bind_error w host port with
  | Some e => raise e
  | None => serve a (incoming w)
  end.

End Flask.

(** ** The program *)

Module App.
Import Py.
Local Open Scope py_scope.

Definition DQ : string := String "034"%char EmptyString.
Definition NL : string := String "010"%char EmptyString.

(** Source lines 9 to 52: the lines of the string literal between its
    opening and its closing quotes. *)
Definition index_lines : list string := [
    "    <!DOCTYPE html>";
    "    <html lang=" +:+ DQ +:+ "en" +:+ DQ +:+ ">";
    "    <head>";
    "        <meta charset=" +:+ DQ +:+ "UTF-8" +:+ DQ +:+ ">";
    "        <meta name=" +:+ DQ +:+ "viewport" +:+ DQ +:+ " content=" +:+ DQ +:+ "width=device-width, initial-scale=1.0" +:+ DQ +:+ ">";
    "        <title>Flask App Template</title>";
    "        <style>";
    "            * { margin: 0; padding: 0; box-sizing: border-box; }";
    "            body {";
    "                font-family: -apple-system, BlinkMacSystemFont, 'Segoe UI', Roboto, sans-serif;";
    "                display: flex;";
    "                justify-content: center;";
    "                align-items: center;";
    "                min-height: 100vh;";
    "                background: linear-gradient(135deg, #3776ab 0%, #ffd43b 100%);";
    "                color: white;";
    "            }";
    "            .container {";
    "                text-align: center;";
    "                padding: 2rem;";
    "                background: rgba(0, 0, 0, 0.3);";
    "                border-radius: 12px;";
    "            }";
    "            h1 { font-size: 2.5rem; margin-bottom: 1rem; }";
    "            p { font-size: 1.1rem; opacity: 0.9; }";
    "            .status {";
    "                margin-top: 1.5rem;";
    "                padding: 1rem;";
    "                background: rgba(255, 255, 255, 0.1);";
    "                border-radius: 8px;";
    "            }";
    "            code { background: rgba(0, 0, 0, 0.3); padding: 0.2rem 0.5rem; border-radius: 4px; }";
    "        </style>";
    "    </head>";
    "    <body>";
    "        <div class=" +:+ DQ +:+ "container" +:+ DQ +:+ ">";
    "            <h1>Flask App Template</h1>";
    "            <p>Your Flask application is running!</p>";
    "            <div class=" +:+ DQ +:+ "status" +:+ DQ +:+ ">";
    "                <p>Replace this file with your own code in <code>html/app.py</code></p>";
    "            </div>";
    "        </div>";
    "    </body>";
    "    </html>"
  ].

(** The triple-quoted literal of [index]: the opening quotes are followed by
    a line break, and the closing quotes are preceded by four spaces on a
    line of their own. *)
Definition index_literal : string :=
  String.concat NL ([""] ++ index_lines ++ ["    "]).

(** [def index(): return '''...'''] *)
Definition index : Flask.View := ret index_literal.

(** [app = Flask(__name__)] followed by [@app.route('/')] on [index]. *)
Definition app (name : string) : Flask.App :=
  Flask.route (Flask.new name) "/" "index" index.

(** [if __name__ == '__main__':
       app.run(host='0.0.0.0', port=int(os.environ.get('PORT', 8000)))] *)
Definition main (name : string) : M unit :=
  if String.eqb name "__main__" then
    let* v := environ_get "PORT" (PyInt 8000) in
    let* port := int v in
    Flask.run (app name) "0.0.0.0" port
  else ret tt.

End App.

(** ** Observations

    What the properties below speak about: the events a run adds to the
    trace, and the closed form of the application's answers. *)

Module Obs.
Import Py.

(** The world [w] after the events [evs] and nothing else. *)
Definition with_trace (w : World) (evs : list Event) : World :=
  mkWorld (environ w) (request w) (incoming w) (bind_error w) (static_file w)
          (trace w ++ evs).

(** The keys read from the environment, in order. *)
Fixpoint env_reads (t : list Event) : list string :=
  match t with
  | EnvironGet k :: t' => k :: env_reads t'
  | _ :: t' => env_reads t'
  | [] => []
  end.

(** The calls of [run], in order, with their host and port. *)
Fixpoint runs (t : list Event) : list (string * Z) :=
  match t with
  | Run h p :: t' => (h, p) :: runs t'
  | _ :: t' => runs t'
  | [] => []
  end.

(** The events that executing the module under the name [name] adds to the
    trace of [w]. *)
Definition new_events (name : string) (w : World) : list Event :=
  drop (length (trace w)) (trace (snd (App.main name w))).

(** Whether executing the module under [name] calls [run]. *)
Definition run_called (name : string) (w : World) : bool :=
  match runs (new_events name w) with
  | [] => false
  | _ :: _ => true
  end.

(** The port expression of the entry point, [int(os.environ.get('PORT',
    8000))], as a function of the environment: the port, or the exception
    [int] raises. *)
Definition resolved_port (w : World) : Result Z :=
  fst (int (dict_get (environ w) "PORT" (PyInt 8000)) w).

(** What the application answers to a request in the world [w]: the
    closed form of [Flask.wsgi_app] on [App.app].  The only view an
    author's rule leads to is [index]. *)
Definition answer (w : World) (req : Request) : Flask.Reply :=
  Flask.finalize req
    match Flask.match_request (App.app "") (Flask.upper (method req)) (path req) with
    | Flask.NoMatch [] => Flask.DefaultError Flask.NotFound
    | Flask.NoMatch (m :: valid) => Flask.DefaultError (Flask.MethodNotAllowed (m :: valid))
    | Flask.Redirect location => Flask.DefaultError (Flask.RequestRedirect location)
    | Flask.Matched r arg =>
        if String.eqb (Flask.upper (method req)) "OPTIONS"
        then Flask.ViewResponse (Flask.make_response "")
        else
          match arg with
          | Some filename =>
              match static_file w filename with
              | Some content => Flask.StaticFile filename content
              | None => Flask.DefaultError Flask.NotFound
              end
          | None => Flask.ViewResponse (Flask.make_response App.index_literal)
          end
    end.

Definition handled (w : World) (req : Request) : Event :=
  Handled req (Flask.reply_status (answer w req)).

(** A process environment in which [PORT] is "9999", one in which it is not
    set, and one in which it is not a number; no request arrives, every
    bind succeeds and the static folder is empty. *)
Definition world_of (env : gmap string string) : World :=
  mkWorld env None [] (fun _ _ => None) (fun _ => None) [].

Definition w_9999 : World := world_of {[ "PORT" := "9999" ]}.
Definition w_unset : World := world_of ∅.
Definition w_abc : World := world_of {[ "PORT" := "abc" ]}.

(** A world in which port 8000 is taken. *)
Definition w_busy : World :=
  mkWorld ∅ None []
          (fun _ p => if Z.eqb p 8000
                      then Some (Raised "OSError" "Address already in use")
                      else None)
          (fun _ => None)
          [].

End Obs.

(** ** Further cases

    Inputs of the entry point beyond the ones above. *)

Module Cases.
Import Py Obs.

(** Whether a string holds nothing but whitespace; the empty string does. *)
Fixpoint is_blank (s : string) : bool :=
  match s with
  | String c s' => is_space c && is_blank s'
  | EmptyString => true
  end.

(** [PORT] set to the empty string; to a number above the range of TCP
    ports; to a negative number. *)
Definition w_empty : World := world_of {[ "PORT" := "" ]}.
Definition w_70000 : World := world_of {[ "PORT" := "70000" ]}.
Definition w_negative : World := world_of {[ "PORT" := "-1" ]}.

(** [PORT] is "9999" as in [w_9999], next to other variables, with requests
    waiting and port 9999 taken. *)
Definition w_9999_crowded : World :=
  mkWorld (<[ "HOST" := "127.0.0.1" ]> (<[ "FLASK_RUN_PORT" := "5000" ]>
             {[ "PORT" := "9999" ]}))
          None
          [mkRequest "GET" "/" "" [] ""]
          (fun _ p => if Z.eqb p 9999
                      then Some (Raised "OSError" "Address already in use")
                      else None)
          (fun _ => None)
          [].

End Cases.

(** ** Properties *)

Import Py Obs.

Section Trace.

Lemma env_reads_app (t1 t2 : list Event) :
  env_reads (t1 ++ t2) = env_reads t1 ++ env_reads t2.
Proof.
  induction t1 as [|ev t1 IH]; [reflexivity|].
  destruct ev; simpl; rewrite IH; reflexivity.
Qed.

Lemma runs_app (t1 t2 : list Event) :
  runs (t1 ++ t2) = runs t1 ++ runs t2.
Proof.
  induction t1 as [|ev t1 IH]; [reflexivity|].
  destruct ev; simpl; rewrite IH; reflexivity.
Qed.

Lemma env_reads_handled (w : World) (reqs : list Request) :
  env_reads (map (handled w) reqs) = [].
Proof. induction reqs as [|r reqs IH]; [reflexivity|exact IH]. Qed.

Lemma runs_handled (w : World) (reqs : list Request) :
  runs (map (handled w) reqs) = [].
Proof. induction reqs as [|r reqs IH]; [reflexivity|exact IH]. Qed.

Lemma with_trace_nil (w : World) : with_trace w [] = w.
Proof. destruct w; unfold with_trace; simpl; rewrite app_nil_r; reflexivity. Qed.

Lemma with_trace_app (w : World) (e1 e2 : list Event) :
  with_trace (with_trace w e1) e2 = with_trace w (e1 ++ e2).
Proof. unfold with_trace; simpl; rewrite <- app_assoc; reflexivity. Qed.

Lemma drop_trace (w : World) (evs : list Event) :
  drop (length (trace w)) (trace (with_trace w evs)) = evs.
Proof. unfold with_trace; simpl. apply drop_app_length. Qed.

End Trace.

Section Handler.

(** The view returns its literal and leaves the world as it found it. *)
Lemma index_run (w : World) : App.index w = (Ok App.index_literal, w).
Proof. reflexivity. Qed.

Lemma app_url_map (name : string) :
  Flask.url_map (App.app name) = [Flask.mkRule "/" "index" Flask.default_methods].
Proof. reflexivity. Qed.

Lemma app_view (name : string) :
  Flask.view_functions (App.app name) !! "index" = Some App.index.
Proof.
  unfold App.app, Flask.route, Flask.add_url_rule; cbn [Flask.view_functions].
  apply lookup_insert_eq.
Qed.

Lemma strip_prefix_outside (pre s : string) :
  String.prefix pre s = false -> Flask.strip_prefix pre s = None.
Proof.
  revert s. induction pre as [|a pre IH]; intros s H;
    [destruct s; simpl in H; discriminate|].
  destruct s as [|b s]; [reflexivity|]. simpl in *.
  destruct (ascii_dec a b) as [->|Hne].
  - rewrite Ascii.eqb_refl. apply IH, H.
  - apply Ascii.eqb_neq in Hne. rewrite Hne. reflexivity.
Qed.

Lemma static_filename_outside (sp pp : string) :
  String.prefix (sp +:+ "/") pp = false -> Flask.static_filename sp pp = None.
Proof.
  intros H. unfold Flask.static_filename.
  rewrite (strip_prefix_outside _ _ H). reflexivity.
Qed.

(** The rules of the application that a path can match: the framework's
    rule for static files and the rule of [index]. *)
Lemma candidates_app (name pp : string) :
  Flask.candidates (App.app name) pp =
  match Flask.static_filename "/static" pp with
  | Some f => [(Flask.static_rule "/static", Some f)]
  | None => []
  end
  ++ (if String.eqb "/" pp
      then [(Flask.mkRule "/" "index" Flask.default_methods, None)]
      else []).
Proof.
  unfold Flask.candidates. rewrite app_url_map.
  cbn [List.filter Flask.rule map].
  change (Flask.static_url_path (App.app name)) with (Some "/static").
  destruct (String.eqb "/" pp); reflexivity.
Qed.

Lemma match_request_name (name m p : string) :
  Flask.match_request (App.app name) m p = Flask.match_request (App.app "") m p.
Proof. reflexivity. Qed.

(** Only the empty path becomes "/" when a slash is added to it. *)
Lemma slash_added_not_root (pp : string) :
  pp <> EmptyString -> String.eqb "/" (pp +:+ "/") = false.
Proof.
  intros Hne. apply String.eqb_neq. intros H.
  destruct pp as [|c [|c' pp]]; [congruence | discriminate | discriminate].
Qed.

(** A match that binds no file name is a match of the rule of [index]. *)
Lemma matched_author (name m p : string) (r : Flask.Rule) :
  Flask.match_request (App.app name) m p = Flask.Matched r None ->
  r = Flask.mkRule "/" "index" Flask.default_methods.
Proof.
  unfold Flask.match_request. rewrite candidates_app, app_url_map.
  destruct (Flask.static_filename "/static" (Flask.path_part p)) as [f|];
    destruct (String.eqb "/" (Flask.path_part p));
    cbn [app List.find fst Flask.allows Flask.methods Flask.static_rule Flask.rule];
    destruct (existsb (String.eqb m) Flask.default_methods);
    cbn [andb];
    repeat match goal with
           | |- context [if ?b then _ else _] => destruct b
           end;
    intros H; try discriminate; inversion H; reflexivity.
Qed.

Lemma status_finalize (req : Request) (rep : Flask.Reply) :
  Flask.reply_status (Flask.finalize req rep) = Flask.reply_status rep.
Proof.
  unfold Flask.finalize. destruct (String.eqb (method req) "HEAD"); [|reflexivity].
  destruct rep; reflexivity.
Qed.

(** One request through the application: the answer is [answer w req], and
    the world only gains the record of the request. *)
Lemma wsgi_app_answer (name : string) (req : Request) (w : World) :
  Flask.wsgi_app (App.app name) req w
    = (Ok (answer w req), with_trace w [handled w req]).
Proof.
  unfold Flask.wsgi_app, Flask.full_dispatch_request, handled, answer.
  unfold bind, get_world, set_request, emit, ret, with_trace.
  cbn [request environ incoming bind_error static_file trace].
  rewrite (match_request_name name).
  destruct (Flask.match_request (App.app "") (Flask.upper (method req)) (path req))
    as [r [f|]|location|[|m valid]] eqn:Hm.
  - destruct (String.eqb (Flask.upper (method req)) "OPTIONS").
    + rewrite status_finalize. reflexivity.
    + unfold Flask.send_static_file, bind, get_world, ret.
      cbn [request environ incoming bind_error static_file trace].
      destruct (static_file w f); rewrite status_finalize; reflexivity.
  - destruct (String.eqb (Flask.upper (method req)) "OPTIONS").
    + rewrite status_finalize. reflexivity.
    + apply matched_author in Hm. subst r. cbn [Flask.endpoint].
      rewrite app_view. unfold Flask.call_view. rewrite index_run.
      cbn [request environ incoming bind_error static_file trace].
      rewrite status_finalize. reflexivity.
  - rewrite status_finalize. reflexivity.
  - rewrite status_finalize. reflexivity.
  - rewrite status_finalize. reflexivity.
Qed.

Lemma serve_app (name : string) (reqs : list Request) (w : World) :
  Flask.serve (App.app name) reqs w = (Ok tt, with_trace w (map (handled w) reqs)).
Proof.
  revert w. induction reqs as [|req reqs IH]; intros w.
  - simpl. rewrite with_trace_nil. reflexivity.
  - cbn [Flask.serve]. unfold bind at 1. rewrite wsgi_app_answer, IH.
    rewrite with_trace_app. reflexivity.
Qed.

End Handler.

Section EntryPoint.

(** [int] neither reads nor writes the world. *)
Lemma int_world (v : value) (w : World) : int v w = (fst (int v w), w).
Proof.
  destruct v as [s|n]; simpl; [|reflexivity].
  destruct (parse_int s); reflexivity.
Qed.

Lemma int_fst (v : value) (w w' : World) : fst (int v w) = fst (int v w').
Proof.
  destruct v as [s|n]; simpl; [|reflexivity].
  destruct (parse_int s); reflexivity.
Qed.

Lemma environ_get_run (key : string) (default : value) (w : World) :
  environ_get key default w =
  (Ok (dict_get (environ w) key default), with_trace w [EnvironGet key]).
Proof. reflexivity. Qed.

Lemma run_app (name host : string) (port : Z) (w : World) :
  Flask.run (App.app name) host port w =
  match bind_error w host port with
  | Some e => (Raise e, with_trace w [Run host port])
  | None => (Ok tt, with_trace w (Run host port :: map (handled w) (incoming w)))
  end.
Proof.
  unfold Flask.run, bind, emit, get_world.
  cbn [request environ incoming bind_error static_file trace].
  destruct (bind_error w host port) as [e|]; [reflexivity|].
  rewrite serve_app. unfold with_trace.
  cbn [request environ incoming bind_error static_file trace].
  rewrite <- app_assoc. reflexivity.
Qed.

(** The entry point, run as the main program, in closed form. *)
Lemma main_run (w : World) :
  App.main "__main__" w =
  match resolved_port w with
  | Raise e => (Raise e, with_trace w [EnvironGet "PORT"])
  | Ok p =>
      match bind_error w "0.0.0.0" p with
      | Some e => (Raise e, with_trace w [EnvironGet "PORT"; Run "0.0.0.0" p])
      | None =>
          (Ok tt, with_trace w (EnvironGet "PORT" :: Run "0.0.0.0" p
                                  :: map (handled w) (incoming w)))
      end
  end.
Proof.
  unfold App.main, resolved_port. cbn [String.eqb Ascii.eqb Bool.eqb].
  unfold bind at 1. rewrite environ_get_run.
  unfold bind. rewrite int_world.
  rewrite (int_fst _ (with_trace w [EnvironGet "PORT"]) w).
  destruct (fst (int (dict_get (environ w) "PORT" (PyInt 8000)) w)) as [p|e];
    [|reflexivity].
  rewrite run_app. cbn [with_trace request environ incoming bind_error static_file trace].
  destruct (bind_error w "0.0.0.0" p) as [e|].
  - rewrite with_trace_app. reflexivity.
  - rewrite with_trace_app. reflexivity.
Qed.

(** Executed under any other name, the module's last statement does
    nothing. *)
Lemma main_imported (name : string) (w : World) :
  name <> "__main__" -> App.main name w = (Ok tt, w).
Proof.
  intros Hname. unfold App.main.
  destruct (String.eqb name "__main__") eqn:E; [|reflexivity].
  apply String.eqb_eq in E. contradiction.
Qed.

Lemma new_events_main (w : World) :
  new_events "__main__" w =
  match resolved_port w with
  | Raise e => [EnvironGet "PORT"]
  | Ok p =>
      match bind_error w "0.0.0.0" p with
      | Some e => [EnvironGet "PORT"; Run "0.0.0.0" p]
      | None => EnvironGet "PORT" :: Run "0.0.0.0" p :: map (handled w) (incoming w)
      end
  end.
Proof.
  unfold new_events. rewrite main_run.
  destruct (resolved_port w) as [p|e]; [|apply drop_trace].
  destruct (bind_error w "0.0.0.0" p); apply drop_trace.
Qed.

Lemma new_events_imported (name : string) (w : World) :
  name <> "__main__" -> new_events name w = [].
Proof.
  intros Hname. unfold new_events. rewrite main_imported by assumption.
  simpl. apply drop_all.
Qed.

Lemma resolved_port_set (w : World) (s : string) :
  environ w !! "PORT" = Some s ->
  resolved_port w = match parse_int s with
                    | Some n => Ok n
                    | None => Raise (ValueError s)
                    end.
Proof.
  intros Hs. unfold resolved_port, dict_get. rewrite Hs. simpl.
  destruct (parse_int s); reflexivity.
Qed.

Lemma resolved_port_unset (w : World) :
  environ w !! "PORT" = None -> resolved_port w = Ok 8000.
Proof. intros Hs. unfold resolved_port, dict_get. rewrite Hs. reflexivity. Qed.

(** The default of [os.environ.get] is returned only when the key is
    absent: a value taken from the environment is a [str], never the [int]
    8000. *)
Lemma default_only_when_unset (env : gmap string string) :
  dict_get env "PORT" (PyInt 8000) = PyInt 8000 <-> env !! "PORT" = None.
Proof.
  unfold dict_get. destruct (env !! "PORT") as [s|]; split; intros H;
    try reflexivity; discriminate.
Qed.

End EntryPoint.

(** ** The route *)

Section Route.

(** C1.  For every request GET / (whatever its query string, headers and
    body, in whatever world), the rule that matches is the one registered
    for [index], and the application answers with a response of status 200
    and media type text/html whose body is exactly the string literal of
    the source; that literal contains the text "Flask App Template". *)
Theorem get_root_returns_literal
    (name : string) (w : World)
    (q : string) (h : list (string * string)) (d : string) :
  let req := mkRequest "GET" "/" q h d in
  Flask.endpoint <$> Flask.match_rule (App.app name) (path req) = Some "index" /\
  Flask.view_functions (App.app name) !! "index" = Some App.index /\
  exists r : Flask.Response,
    Flask.wsgi_app (App.app name) req w
      = (Ok (Flask.ViewResponse r), with_trace w [Handled req 200]) /\
    Flask.status r = 200 /\
    Flask.mimetype (Flask.content_type r) = "text/html" /\
    Flask.body r = App.index_literal /\
    exists pre post : string,
      Flask.body r = pre +:+ "Flask App Template" +:+ post.
Proof.
  intros req. split; [reflexivity|]. split; [apply app_view|].
  exists (Flask.make_response App.index_literal).
  split; [rewrite wsgi_app_answer; reflexivity|].
  split; [reflexivity|]. split; [reflexivity|]. split; [reflexivity|].
  exists (substring 0 178 App.index_literal),
         (substring 196 1412 App.index_literal).
  vm_compute. reflexivity.
Qed.

(** C2.  The handler is a constant function: in any two worlds (which may
    differ in the request being handled, the environment, and everything
    else) [index] returns the same value and leaves the world untouched;
    so any two requests GET /, identical or different in query string,
    headers or body, receive the same response. *)
Theorem index_is_constant
    (name : string) (w1 w2 : World)
    (q1 q2 : string) (h1 h2 : list (string * string)) (d1 d2 : string) :
  fst (App.index w1) = fst (App.index w2) /\
  snd (App.index w1) = w1 /\
  fst (Flask.wsgi_app (App.app name) (mkRequest "GET" "/" q1 h1 d1) w1)
    = fst (Flask.wsgi_app (App.app name) (mkRequest "GET" "/" q2 h2 d2) w2).
Proof.
  split; [reflexivity|]. split; [reflexivity|].
  rewrite !wsgi_app_answer. reflexivity.
Qed.

(** C5, as stated, fails: the request GET // is for a path other than "/",
    yet the rule of [index] matches it and the page is sent. *)
Lemma other_path_reaches_index :
  let req := mkRequest "GET" "//" "" [] "" in
  ~ (path req <> "/" ->
     Flask.match_rule (App.app "app") (path req) = None /\
     fst (Flask.wsgi_app (App.app "app") req w_unset)
       = Ok (Flask.DefaultError Flask.NotFound)) /\
  Flask.endpoint <$> Flask.match_rule (App.app "app") (path req) = Some "index" /\
  fst (Flask.wsgi_app (App.app "app") req w_unset)
    = Ok (Flask.ViewResponse (Flask.make_response App.index_literal)).
Proof.
  intros req. split; [|split].
  - intros H. destruct H as [Hm _].
    + unfold req. simpl. discriminate.
    + vm_compute in Hm. discriminate.
  - reflexivity.
  - rewrite wsgi_app_answer. reflexivity.
Qed.

(** C5, amended.  The application registers exactly one rule of its own,
    for the path "/", next to the rule the framework registers for static
    files under /static; a request whose path, with its leading slashes
    reduced to one, is not empty, is not "/" and does not begin with
    "/static/" matches no rule, whatever its method, and is answered with
    the framework's default not-found response. *)
Theorem unrouted_path_not_found
    (name : string) (req : Request) (w : World)
    (Hempty : Flask.path_part (path req) <> "")
    (Hroot : Flask.path_part (path req) <> "/")
    (Hstatic : String.prefix "/static/" (Flask.path_part (path req)) = false) :
  Flask.url_map (App.app name) = [Flask.mkRule "/" "index" Flask.default_methods] /\
  Flask.static_url_path (App.app name) = Some "/static" /\
  Flask.match_rule (App.app name) (path req) = None /\
  Flask.wsgi_app (App.app name) req w
    = (Ok (Flask.DefaultError Flask.NotFound), with_trace w [Handled req 404]).
Proof.
  assert (Hc : Flask.candidates (App.app "") (Flask.path_part (path req)) = []).
  { rewrite candidates_app, (static_filename_outside "/static" _ Hstatic).
    destruct (String.eqb_spec "/" (Flask.path_part (path req))) as [E|_];
      [congruence | reflexivity]. }
  split; [reflexivity|]. split; [reflexivity|]. split.
  { unfold Flask.match_rule.
    rewrite candidates_app, (static_filename_outside "/static" _ Hstatic).
    destruct (String.eqb_spec "/" (Flask.path_part (path req))) as [E|_];
      [congruence | reflexivity]. }
  rewrite wsgi_app_answer. unfold handled, answer, Flask.match_request.
  rewrite Hc, app_url_map. cbn [List.find Flask.rule map List.concat].
  rewrite (slash_added_not_root _ Hempty). cbn [andb].
  unfold Flask.finalize. destruct (String.eqb (method req) "HEAD"); reflexivity.
Qed.

Lemma unrouted_path_not_found_witness :
  let req := mkRequest "GET" "/health" "" [] "" in
  Flask.match_rule (App.app "app") (path req) = None /\
  Flask.wsgi_app (App.app "app") req w_unset
    = (Ok (Flask.DefaultError Flask.NotFound), with_trace w_unset [Handled req 404]).
Proof.
  intros req.
  destruct (unrouted_path_not_found "app" req w_unset) as (_ & _ & Hm & Hr).
  - simpl. discriminate.
  - simpl. discriminate.
  - reflexivity.
  - split; [exact Hm | exact Hr].
Defined.

(** C9.  [index] is total and never raises: in every world it returns its
    string and changes nothing. *)
Theorem index_never_raises (w : World) :
  (exists s : string, App.index w = (Ok s, w)) /\
  (forall e : exn, fst (App.index w) <> Raise e).
Proof.
  split; [exists App.index_literal; reflexivity|].
  intros e. rewrite index_run. simpl. discriminate.
Qed.

(** C10.  The string [index] returns does not begin with "<!DOCTYPE": it
    begins with a line break and four spaces of indentation before
    "<!DOCTYPE html>", and it ends, after "</html>", with a line break and
    four spaces. *)
Theorem index_literal_is_indented (w : World) :
  exists s : string,
    App.index w = (Ok s, w) /\
    String.prefix "<!DOCTYPE" s = false /\
    (exists rest, s = App.NL +:+ "    " +:+ "<!DOCTYPE html>" +:+ rest) /\
    (exists front, s = front +:+ "</html>" +:+ App.NL +:+ "    ").
Proof.
  exists App.index_literal. split; [reflexivity|]. split; [reflexivity|]. split.
  - exists (substring 20 1588 App.index_literal). vm_compute. reflexivity.
  - exists (substring 0 1596 App.index_literal). vm_compute. reflexivity.
Qed.

End Route.

(** ** The entry point *)

Section Startup.

(** C3.  Run as the main program, the module calls [run] once, on host
    0.0.0.0 and on the resolved port: 9999 when [PORT] is "9999" in the
    environment, 8000 when [PORT] is not set; and when the bind succeeds
    the server runs without raising. *)
Theorem main_runs_on_resolved_port (w : World) :
  (environ w !! "PORT" = Some "9999" ->
     runs (new_events "__main__" w) = [("0.0.0.0", 9999)] /\
     (bind_error w "0.0.0.0" 9999 = None -> fst (App.main "__main__" w) = Ok tt)) /\
  (environ w !! "PORT" = None ->
     runs (new_events "__main__" w) = [("0.0.0.0", 8000)] /\
     (bind_error w "0.0.0.0" 8000 = None -> fst (App.main "__main__" w) = Ok tt)).
Proof.
  split; intros Henv.
  - assert (Hp : resolved_port w = Ok 9999)
      by (rewrite (resolved_port_set w "9999" Henv); reflexivity).
    rewrite new_events_main, main_run, Hp.
    destruct (bind_error w "0.0.0.0" 9999) as [e|].
    + split; [reflexivity | discriminate].
    + split; [|reflexivity]. simpl. rewrite runs_handled. reflexivity.
  - rewrite new_events_main, main_run, (resolved_port_unset w Henv).
    destruct (bind_error w "0.0.0.0" 8000) as [e|].
    + split; [reflexivity | discriminate].
    + split; [|reflexivity]. simpl. rewrite runs_handled. reflexivity.
Qed.

Lemma main_runs_on_resolved_port_witness :
  (runs (new_events "__main__" w_9999) = [("0.0.0.0", 9999)] /\
   fst (App.main "__main__" w_9999) = Ok tt) /\
  (runs (new_events "__main__" w_unset) = [("0.0.0.0", 8000)] /\
   fst (App.main "__main__" w_unset) = Ok tt).
Proof.
  split.
  - destruct (proj1 (main_runs_on_resolved_port w_9999)) as [Hr Hok];
      [reflexivity|].
    split; [exact Hr | apply Hok; reflexivity].
  - destruct (proj2 (main_runs_on_resolved_port w_unset)) as [Hr Hok];
      [reflexivity|].
    split; [exact Hr | apply Hok; reflexivity].
Defined.

(** C4.  When [PORT] is set to a string that [int] does not accept, startup
    raises the [ValueError] of the conversion right after the environment
    is read: [run] is not called, on port 8000 or any other.  The default
    8000 is what [os.environ.get] returns only when [PORT] is unset. *)
Theorem unparsable_port_raises (w : World) (s : string)
    (Hset : environ w !! "PORT" = Some s)
    (Hbad : parse_int s = None) :
  App.main "__main__" w = (Raise (ValueError s), with_trace w [EnvironGet "PORT"]) /\
  runs (new_events "__main__" w) = [] /\
  (forall env : gmap string string,
     dict_get env "PORT" (PyInt 8000) = PyInt 8000 <-> env !! "PORT" = None).
Proof.
  split; [|split].
  - rewrite main_run, (resolved_port_set w s Hset), Hbad. reflexivity.
  - rewrite new_events_main, (resolved_port_set w s Hset), Hbad. reflexivity.
  - exact default_only_when_unset.
Qed.

Lemma unparsable_port_raises_witness :
  App.main "__main__" w_abc
    = (Raise (ValueError "abc"), with_trace w_abc [EnvironGet "PORT"]) /\
  runs (new_events "__main__" w_abc) = [].
Proof.
  destruct (unparsable_port_raises w_abc "abc") as (Hm & Hr & _);
    [reflexivity | reflexivity |].
  split; [exact Hm | exact Hr].
Defined.

(** C6.  Run as the main program, the module reads the environment exactly
    once, for [PORT], before anything else; [run] is called at most once,
    after that read, so the port it was given is never replaced; and
    nothing writes the environment: it is the same after the whole run,
    requests included, as before, and no request handled by the
    application changes it. *)
Theorem port_read_once (w : World) :
  environ (snd (App.main "__main__" w)) = environ w /\
  (exists evs : list Event,
     new_events "__main__" w = EnvironGet "PORT" :: evs /\
     env_reads evs = [] /\
     (length (runs evs) <= 1)%nat) /\
  (forall (name : string) (req : Request) (w0 : World),
     environ (snd (Flask.wsgi_app (App.app name) req w0)) = environ w0).
Proof.
  split; [|split].
  - rewrite main_run. destruct (resolved_port w) as [p|e]; [|reflexivity].
    destruct (bind_error w "0.0.0.0" p); reflexivity.
  - rewrite new_events_main. destruct (resolved_port w) as [p|e].
    + destruct (bind_error w "0.0.0.0" p) as [e|].
      * exists [Run "0.0.0.0" p]. repeat split; simpl; lia.
      * exists (Run "0.0.0.0" p :: map (handled w) (incoming w)).
        split; [reflexivity|]. simpl.
        rewrite env_reads_handled, runs_handled. split; [reflexivity|simpl; lia].
    + exists []. repeat split; simpl; lia.
  - intros name req w0. rewrite wsgi_app_answer. reflexivity.
Qed.

(** C7.  A failure of startup reaches the caller as the very exception that
    was raised, and nothing is tried again: when the port conversion raises
    [e], the module raises [e] having only read the environment; when the
    conversion gives [p] and the bind of 0.0.0.0:[p] raises [e], the module
    raises [e] after a single call of [run].  Conversely the module raises
    nothing of its own: an exception it ends with is the one the conversion
    or the bind raised. *)
Theorem startup_failure_propagates (w : World) (e : exn) :
  (resolved_port w = Raise e ->
     App.main "__main__" w = (Raise e, with_trace w [EnvironGet "PORT"])) /\
  (forall p : Z,
     resolved_port w = Ok p ->
     bind_error w "0.0.0.0" p = Some e ->
     App.main "__main__" w
       = (Raise e, with_trace w [EnvironGet "PORT"; Run "0.0.0.0" p])) /\
  (fst (App.main "__main__" w) = Raise e ->
     resolved_port w = Raise e \/
     exists p : Z, resolved_port w = Ok p /\ bind_error w "0.0.0.0" p = Some e).
Proof.
  split; [|split].
  - intros Hp. rewrite main_run, Hp. reflexivity.
  - intros p Hp Hb. rewrite main_run, Hp, Hb. reflexivity.
  - rewrite main_run. destruct (resolved_port w) as [p|e'].
    + destruct (bind_error w "0.0.0.0" p) as [e'|] eqn:Hb; simpl; intros H.
      * right. exists p. split; [reflexivity | congruence].
      * discriminate.
    + simpl. intros H. left. congruence.
Qed.

Lemma startup_failure_propagates_witness :
  App.main "__main__" w_abc
    = (Raise (ValueError "abc"), with_trace w_abc [EnvironGet "PORT"]) /\
  App.main "__main__" w_busy
    = (Raise (Raised "OSError" "Address already in use"),
       with_trace w_busy [EnvironGet "PORT"; Run "0.0.0.0" 8000]).
Proof.
  split.
  - apply (proj1 (startup_failure_propagates w_abc (ValueError "abc"))).
    reflexivity.
  - apply (proj1 (proj2 (startup_failure_propagates w_busy
                           (Raised "OSError" "Address already in use"))) 8000);
      reflexivity.
Defined.

(** C8, as stated, fails: run as the main program with [PORT] set to
    "abc", the module does not call [run]. *)
Lemma run_not_called_on_bad_port :
  ~ (run_called "__main__" w_abc = true <-> "__main__" = "__main__").
Proof.
  intros [_ H]. specialize (H eq_refl). vm_compute in H. discriminate.
Qed.

(** C8, amended.  [run] is called if and only if the module is executed as
    the main program and the port conversion does not raise.  Under any
    name the route is registered; under a name other than "__main__" the
    module's last statement does nothing, so importing starts no server. *)
Theorem run_called_iff_main (name : string) (w : World) :
  (run_called name w = true <->
     name = "__main__" /\ exists p : Z, resolved_port w = Ok p) /\
  Flask.url_map (App.app name) = [Flask.mkRule "/" "index" Flask.default_methods] /\
  Flask.view_functions (App.app name) !! "index" = Some App.index /\
  (name <> "__main__" -> App.main name w = (Ok tt, w)).
Proof.
  split; [|split; [reflexivity | split; [apply app_view | apply main_imported]]].
  unfold run_called. destruct (String.eqb_spec name "__main__") as [->|Hne].
  - rewrite new_events_main. destruct (resolved_port w) as [p|e].
    + destruct (bind_error w "0.0.0.0" p); simpl;
        (split; [intros _; split; [reflexivity | exists p; reflexivity] | reflexivity]).
    + simpl. split; [discriminate|]. intros [_ [p Hp]]. discriminate.
  - rewrite new_events_imported by assumption. simpl.
    split; [discriminate|]. intros [Hn _]. contradiction.
Qed.

Lemma run_called_iff_main_witness :
  run_called "__main__" w_9999 = true /\
  App.main "wsgi" w_9999 = (Ok tt, w_9999).
Proof.
  split.
  - apply (proj1 (run_called_iff_main "__main__" w_9999)).
    split; [reflexivity | exists 9999; reflexivity].
  - apply (proj2 (proj2 (proj2 (run_called_iff_main "wsgi" w_9999)))).
    discriminate.
Defined.

End Startup.

(** ** Further properties of the entry point *)

Section StartupCases.
Import Cases.

Lemma lstrip_blank (s : string) : is_blank s = true -> lstrip s = EmptyString.
Proof.
  induction s as [|c s IH]; [reflexivity|]. simpl.
  destruct (is_space c); [exact IH | discriminate].
Qed.

Lemma parse_int_blank (s : string) : is_blank s = true -> parse_int s = None.
Proof. intros Hs. unfold parse_int. rewrite (lstrip_blank s Hs). reflexivity. Qed.

(** X1.  Whatever integer the value of [PORT] denotes, the module run as the
    main program reads the environment once and calls [run] once, on
    0.0.0.0 and on that very integer: the port is handed over as converted,
    without a check of its range. *)
Theorem port_passed_as_converted (w : World) (s : string) (p : Z)
    (Hset : environ w !! "PORT" = Some s)
    (Hint : parse_int s = Some p) :
  env_reads (new_events "__main__" w) = ["PORT"] /\
  runs (new_events "__main__" w) = [("0.0.0.0", p)].
Proof.
  assert (Hp : resolved_port w = Ok p)
    by (rewrite (resolved_port_set w s Hset), Hint; reflexivity).
  rewrite new_events_main, Hp.
  destruct (bind_error w "0.0.0.0" p) as [e|]; [split; reflexivity|].
  simpl. rewrite env_reads_handled, runs_handled. split; reflexivity.
Qed.

Lemma port_passed_as_converted_witness :
  runs (new_events "__main__" w_70000) = [("0.0.0.0", 70000)] /\
  runs (new_events "__main__" w_negative) = [("0.0.0.0", -1)].
Proof.
  split.
  - apply (port_passed_as_converted w_70000 "70000" 70000); reflexivity.
  - apply (port_passed_as_converted w_negative "-1" (-1)); reflexivity.
Defined.

(** X2.  Of the environment only [PORT] counts: two worlds that agree on
    [PORT], however they differ in other variables, in the requests that
    arrive or in the binds that succeed, resolve the same port (or raise the
    same exception) and lead to the same calls of [run]. *)
Theorem only_port_counts (w1 w2 : World)
    (Hport : environ w1 !! "PORT" = environ w2 !! "PORT") :
  resolved_port w1 = resolved_port w2 /\
  runs (new_events "__main__" w1) = runs (new_events "__main__" w2).
Proof.
  assert (Hp : resolved_port w1 = resolved_port w2).
  { unfold resolved_port, dict_get. rewrite Hport. apply int_fst. }
  split; [exact Hp|].
  rewrite !new_events_main, <- Hp.
  destruct (resolved_port w1) as [p|e]; [|reflexivity].
  destruct (bind_error w1 "0.0.0.0" p), (bind_error w2 "0.0.0.0" p); simpl;
    rewrite ?runs_handled; reflexivity.
Qed.

Lemma only_port_counts_witness :
  resolved_port w_9999 = resolved_port w_9999_crowded /\
  runs (new_events "__main__" w_9999) = runs (new_events "__main__" w_9999_crowded).
Proof. apply (only_port_counts w_9999 w_9999_crowded). reflexivity. Defined.

(** X3.  A [PORT] that is set but blank (empty, or whitespace only) is not
    taken for an unset one: the module run as the main program raises the
    [ValueError] of the conversion and does not call [run]. *)
Theorem blank_port_raises (w : World) (s : string)
    (Hset : environ w !! "PORT" = Some s)
    (Hblank : is_blank s = true) :
  App.main "__main__" w = (Raise (ValueError s), with_trace w [EnvironGet "PORT"]) /\
  runs (new_events "__main__" w) = [].
Proof.
  assert (Hp : resolved_port w = Raise (ValueError s)).
  { rewrite (resolved_port_set w s Hset), (parse_int_blank s Hblank). reflexivity. }
  split.
  - rewrite main_run, Hp. reflexivity.
  - rewrite new_events_main, Hp. reflexivity.
Qed.

Lemma blank_port_raises_witness :
  App.main "__main__" w_empty
    = (Raise (ValueError ""), with_trace w_empty [EnvironGet "PORT"]) /\
  runs (new_events "__main__" w_empty) = [].
Proof. apply (blank_port_raises w_empty ""); reflexivity. Defined.

End StartupCases.
